(** * Hackbright Project Tracker: a shallow embedding of [hackbright.py]

  The program is a command-line front end over three tables (students,
  projects, grades).  Every accessor runs one SQL statement through the
  process-wide session and prints a formatted line; [handle_input] is the
  command loop.

  Layout of the development:
  - [Py]: the Python built-ins the program relies on (strings of code
    points, [str.split], indexing, tuple unpacking, exceptions);
  - [Sql]: the datastore: rows with nullable columns, three-valued
    comparison, and the five SQL statements of the program;
  - [Hackbright]: the functions of [hackbright.py], written in a small
    state-and-exception monad over the session and the standard output;
  - the properties, at the end.

  Modelling conventions, stated once:
  - a table is the list of its rows in scan order; a SELECT keeps that
    order and a join is a nested loop with the FROM table outermost;
  - the surrogate [id] column is assigned by the datastore and is never
    read or written by the program, so rows carry the other columns only;
  - the columns are those of the schema quoted in the docstrings:
    [character varying(30)] for text and [integer] for numbers; an INSERT
    of a value a column cannot take is refused, and so is a text value the
    driver cannot send; the quoted schema declares no key. *)

From Stdlib Require Import List ZArith NArith String Ascii Bool Lia.
From Stdlib Require Import DecimalString.
Import ListNotations.

Local Open Scope list_scope.

(* ------------------------------------------------------------------ *)
(** ** Python built-ins *)

Module Py.

(** A Python [str] is a sequence of Unicode code points. *)
Definition char := N.
Definition str := list char.

(** A source literal. *)
Definition lit (s : string) : str := map N_of_ascii (list_ascii_of_string s).

Fixpoint str_eqb (a b : str) : bool :=
  match a, b with
  | [], [] => true
  | x :: a', y :: b' => N.eqb x y && str_eqb a' b'
  | _, _ => false
  end.

(** The code points [str.split()] treats as separators (those for which
    [str.isspace] holds). *)
Definition is_space (c : char) : bool :=
  ((9 <=? c) && (c <=? 13)           (* U+0009..U+000D: \t \n \v \f \r *)
   || (28 <=? c) && (c <=? 32)       (* U+001C..U+001F and the space U+0020 *)
   || (c =? 133) || (c =? 160)       (* U+0085 NEL, U+00A0 no-break space *)
   || (c =? 5760)                    (* U+1680 *)
   || (8192 <=? c) && (c <=? 8202)   (* U+2000..U+200A *)
   || (c =? 8232) || (c =? 8233)     (* U+2028, U+2029 *)
   || (c =? 8239) || (c =? 8287)     (* U+202F, U+205F *)
   || (c =? 12288))%N.               (* U+3000 *)

(** [s.split()]: maximal runs of non-separators, in order; [tok] is the
    run being read. *)
Fixpoint split_from (tok : str) (s : str) : list str :=
  match s with
  | [] => match tok with [] => [] | _ => [tok] end
  | c :: s' =>
      if is_space c
      then match tok with
           | [] => split_from [] s'
           | _ => tok :: split_from [] s'
           end
      else split_from (tok ++ [c]) s'
  end.

Definition split (s : str) : list str := split_from [] s.

(** [str(n)] for an [int]. *)
Definition str_of_int (n : Z) : str := lit (NilZero.string_of_int (Z.to_int n)).

(** The exceptions the program can raise. *)
Inductive exn : Set :=
| TypeError    (* unpacking [None] *)
| ValueError   (* unpacking a sequence of the wrong length; a text value the
                  driver cannot send (its subclass UnicodeEncodeError
                  included) *)
| IndexError   (* subscript out of range *)
| EOFError     (* [input()] at end of input *)
| DataError.   (* the datastore refuses a value for a column *)

Inductive result (A : Type) : Type :=
| Ok (a : A)
| Raise (e : exn).
Arguments Ok {A} a.
Arguments Raise {A} e.

(** [l[0]] *)
Definition index0 {A} (l : list A) : result A :=
  match l with
  | [] => Raise IndexError
  | x :: _ => Ok x
  end.

(** [l[1:]] *)
Definition slice1 {A} (l : list A) : list A := tl l.

(** [a, b, c = l] for a list [l] *)
Definition unpack3 {A} (l : list A) : result (A * A * A) :=
  match l with
  | [a; b; c] => Ok (a, b, c)
  | _ => Raise ValueError
  end.

(** [a, b, c = row] for the result of [fetchone()], which is [None] when
    the cursor is exhausted. *)
Definition unpack_row {A B C} (row : option (A * B * C)) : result (A * B * C) :=
  match row with
  | Some r => Ok r
  | None => Raise TypeError
  end.

(** How an f-string renders a fetched column: text as it is, an integer
    in decimal, NULL (Python's [None]) as [None]. *)
Definition format_text (v : option str) : str :=
  match v with Some s => s | None => lit "None" end.

Definition format_int (v : option Z) : str :=
  match v with Some n => str_of_int n | None => lit "None" end.

End Py.

(* ------------------------------------------------------------------ *)
(** ** The datastore *)

Module students.
Record row : Type := Row {
  first_name : option Py.str;
  last_name : option Py.str;
  github : option Py.str }.
End students.

Module projects.
Record row : Type := Row {
  title : option Py.str;
  description : option Py.str;
  max_grade : option Z }.
End projects.

Module grades.
Record row : Type := Row {
  student_github : option Py.str;
  project_title : option Py.str;
  grade : option Z }.
End grades.

Module Sql.
Import Py.

Record Database : Type := {
  students : list students.row;
  projects : list projects.row;
  grades : list grades.row }.

(** SQL's three truth values; [None] is UNKNOWN. *)
Definition tri := option bool.

Definition sql_eq (a b : option str) : tri :=
  match a, b with
  | Some x, Some y => Some (str_eqb x y)
  | _, _ => None
  end.

Definition sql_and (p q : tri) : tri :=
  match p, q with
  | Some false, _ | _, Some false => Some false
  | Some true, Some true => Some true
  | _, _ => None
  end.

(** WHERE and ON keep a row only when the condition is TRUE. *)
Definition holds (p : tri) : bool :=
  match p with Some true => true | _ => false end.

(** A column of the nullable side of an outer join. *)
Definition col {R A} (f : R -> option A) (r : option R) : option A :=
  match r with Some x => f x | None => None end.

(** [students LEFT JOIN grades ON (grades.student_github = students.github)] *)
Definition left_join_grades (db : Database)
  : list (students.row * option grades.row) :=
  flat_map
    (fun s =>
       match filter (fun g => holds (sql_eq (grades.student_github g)
                                            (students.github s)))
                    (grades db) with
       | [] => [(s, None)]
       | matching => map (fun g => (s, Some g)) matching
       end)
    (students db).


(** SELECT first_name, last_name, github FROM students
    WHERE github = :github *)
Definition select_student (db : Database) (github : str)
  : list (option str * option str * option str) :=
  map (fun s => (students.first_name s, students.last_name s, students.github s))
      (filter (fun s => holds (sql_eq (students.github s) (Some github)))
              (students db)).

(** SELECT title, description, max_grade FROM projects
    WHERE title = :title *)
Definition select_project (db : Database) (title : str)
  : list (option str * option str * option Z) :=
  map (fun p => (projects.title p, projects.description p, projects.max_grade p))
      (filter (fun p => holds (sql_eq (projects.title p) (Some title)))
              (projects db)).

(** SELECT first_name, last_name, grade FROM students LEFT JOIN grades
    ON (grades.student_github = students.github)
    WHERE grades.project_title = :title AND grades.student_github = :github *)
Definition select_grade (db : Database) (github title : str)
  : list (option str * option str * option Z) :=
  map (fun sg => (students.first_name (fst sg), students.last_name (fst sg),
                  col grades.grade (snd sg)))
      (filter (fun sg =>
                 holds (sql_and
                          (sql_eq (col grades.project_title (snd sg)) (Some title))
                          (sql_eq (col grades.student_github (snd sg)) (Some github))))
              (left_join_grades db)).


(** A value bound to a named placeholder of a statement. *)
Inductive bind_value : Type :=
| Text (s : str)
| Int (n : Z).

(** The code points the driver can send: text goes out as UTF-8 inside a
    string literal, which excludes NUL and lone surrogates. *)
Definition encodable (c : char) : bool :=
  ((1 <=? c) && ((c <? 55296)                        (* below U+D800 *)
                 || (57343 <? c) && (c <=? 1114111)))%N.  (* U+E000..U+10FFFF *)

Definition sendable (v : bind_value) : bool :=
  match v with
  | Text s => forallb encodable s
  | Int _ => true
  end.

(** Storing into a [character varying(n)] column: a value of more than [n]
    characters is refused, unless the excess is spaces only, which are cut
    off. *)
Definition varchar (n : nat) (s : str) : option str :=
  if forallb (N.eqb 32) (skipn n s) then Some (firstn n s) else None.

(** Storing into an [integer] column: 32 bits, signed. *)
Definition integer (n : Z) : option Z :=
  if ((-2147483648 <=? n) && (n <=? 2147483647))%Z then Some n else None.

(** The students table with one more row, of the given stored columns. *)
Definition store_student (db : Database) (first_name last_name github : str)
  : Database :=
  {| students := students db ++
                   [students.Row (Some first_name) (Some last_name) (Some github)];
     projects := projects db;
     grades := grades db |}.

(** The grades table with one more row, of the given stored columns. *)
Definition store_grade (db : Database) (student_github project_title : str)
                       (grade : Z) : Database :=
  {| students := students db;
     projects := projects db;
     grades := grades db ++
                 [grades.Row (Some student_github) (Some project_title) (Some grade)] |}.

(** INSERT INTO students (first_name, last_name, github)
    VALUES (:first_name, :last_name, :github)
    on the columns of the schema in the docstring of
    [get_grade_by_github_title], all [character varying(30)]. *)
Definition insert_student (db : Database) (first_name last_name github : str)
  : result Database :=
  match varchar 30 first_name, varchar 30 last_name, varchar 30 github with
  | Some f, Some l, Some g => Ok (store_student db f l g)
  | _, _, _ => Raise DataError
  end.

(** INSERT INTO grades (student_github, project_title, grade)
    VALUES (:student_github, :project_title, :grade)
    on the columns of the schema in the docstring of [assign_grade]:
    two [character varying(30)] and an [integer]. *)
Definition insert_grade (db : Database) (student_github project_title : str)
                        (grade : Z) : result Database :=
  match varchar 30 student_github, varchar 30 project_title, integer grade with
  | Some h, Some t, Some n => Ok (store_grade db h t n)
  | _, _, _ => Raise DataError
  end.

(** The first row of a cursor, [None] when there is none. *)
Definition fetchone {A} (db_cursor : list A) : option A := hd_error db_cursor.

End Sql.

(* ------------------------------------------------------------------ *)
(** ** hackbright.py *)

Module Hackbright.
Import Py Sql.

(** The process-wide [db.session]: the rows the datastore holds durably and
    the rows the session's open transaction sees (its own uncommitted
    inserts included). *)
Record Session : Type := {
  committed : Database;
  pending : Database }.

Inductive config_value : Type :=
| CfgStr (s : str)
| CfgBool (b : bool).

(** What the functions of the module act on: [app.config], whether [db] is
    bound to the app, the session, and what has been written to the
    standard output. *)
Record State : Type := {
  app_config : list (str * config_value);
  db_app : bool;
  session : Session;
  stdout : str }.

(** Computations that read and update the state and may raise. *)
Definition M (A : Type) : Type := State -> result A * State.

Definition ret {A} (a : A) : M A := fun st => (Ok a, st).

Definition bind {A B} (m : M A) (k : A -> M B) : M B :=
  fun st =>
    match m st with
    | (Ok a, st') => k a st'
    | (Raise e, st') => (Raise e, st')
    end.

Definition lift {A} (r : result A) : M A := fun st => (r, st).

Declare Scope py_scope.
Delimit Scope py_scope with py.
Notation "x <- m ;; k" := (bind m (fun x => k))
  (at level 100, m at next level, right associativity) : py_scope.
Notation "' p <- m ;; k" := (bind m (fun x => match x with p => k end))
  (at level 100, p pattern, m at next level, right associativity) : py_scope.
Notation "m ;; k" := (bind m (fun _ => k))
  (at level 100, right associativity) : py_scope.
Local Open Scope py_scope.

Definition nl : str := [10%N].

Definition with_stdout (st : State) (s : str) : State :=
  {| app_config := app_config st; db_app := db_app st;
     session := session st; stdout := s |}.

Definition with_session (st : State) (s : Session) : State :=
  {| app_config := app_config st; db_app := db_app st;
     session := s; stdout := stdout st |}.

(** [sys.stdout.write(s)] *)
Definition write (s : str) : M unit :=
  fun st => (Ok tt, with_stdout st (stdout st ++ s)).

(** [print(s)] *)
Definition print (s : str) : M unit := write (s ++ nl).

(** [db.session.execute] of a SELECT: the cursor over the rows the open
    transaction sees. *)
Definition execute_select {A} (QUERY : Database -> list A) : M (list A) :=
  fun st => (Ok (QUERY (pending (session st))), st).

(** [db.session.execute] of an INSERT with its bound values: the driver
    raises on a value it cannot send, before anything reaches the
    datastore; the datastore raises when a column refuses its value, and
    then no row is written. *)
Definition execute_insert (params : list bind_value)
                          (QUERY : Database -> result Database) : M unit :=
  fun st =>
    if forallb sendable params then
      match QUERY (pending (session st)) with
      | Ok db =>
          (Ok tt, with_session st {| committed := committed (session st);
                                     pending := db |})
      | Raise e => (Raise e, st)
      end
    else (Raise ValueError, st).

(** [db.session.commit()] *)
Definition commit : M unit :=
  fun st =>
    (Ok tt, with_session st {| committed := pending (session st);
                               pending := pending (session st) |}).

(** [db.session.close()]: what was not committed is rolled back. *)
Definition close : M unit :=
  fun st =>
    (Ok tt, with_session st {| committed := committed (session st);
                               pending := committed (session st) |}).

(** [d[k] = v] on a dict kept in insertion order. *)
Fixpoint dict_set {V} (d : list (str * V)) (k : str) (v : V) : list (str * V) :=
  match d with
  | [] => [(k, v)]
  | (k', v') :: d' =>
      if str_eqb k' k then (k, v) :: d' else (k', v') :: dict_set d' k v
  end.

Definition connect_to_db : M unit :=
  fun st =>
    let config := dict_set (app_config st) (lit "SQLALCHEMY_DATABASE_URI")
                           (CfgStr (lit "postgresql:///project-tracker")) in
    let config := dict_set config (lit "SQLALCHEMY_TRACK_MODIFICATIONS")
                           (CfgBool false) in
    (Ok tt, {| app_config := config; db_app := true;
               session := session st; stdout := stdout st |}).

Definition get_student_by_github (github : str) : M unit :=
  db_cursor <- execute_select (fun db => select_student db github) ;;
  let row := fetchone db_cursor in
  '(first_name, last_name, github) <- lift (unpack_row row) ;;
  print (lit "Student: " ++ format_text first_name ++ lit " "
         ++ format_text last_name ++ nl
         ++ lit "GitHub account: " ++ format_text github).

Definition make_new_student (first_name last_name github : str) : M unit :=
  execute_insert [Text first_name; Text last_name; Text github]
    (fun db => insert_student db first_name last_name github) ;;
  commit ;;
  print (lit "Successfully added " ++ first_name ++ lit " " ++ last_name
         ++ lit ".").

Definition get_project_by_title (title : str) : M unit :=
  db_cursor <- execute_select (fun db => select_project db title) ;;
  let row := fetchone db_cursor in
  '(title, description, max_grade) <- lift (unpack_row row) ;;
  print (format_text title ++ lit ": " ++ format_text description ++ nl
         ++ lit "Max grade: " ++ format_int max_grade).

Definition get_grade_by_github_title (github title : str) : M unit :=
  db_cursor <- execute_select (fun db => select_grade db github title) ;;
  let row := fetchone db_cursor in
  '(first_name, last_name, grade) <- lift (unpack_row row) ;;
  print (format_text first_name ++ lit " " ++ format_text last_name
         ++ lit "'s " ++ title ++ lit " project received "
         ++ format_int grade ++ lit " points").

Definition assign_grade (github title : str) (grade : Z) : M unit :=
  execute_insert [Text github; Text title; Int grade]
    (fun db => insert_grade db github title grade) ;;
  commit ;;
  print (lit "Successfully graded " ++ github ++ lit "'s " ++ title
         ++ lit " project " ++ str_of_int grade ++ lit " points.").

(** The body of the [while] loop of [handle_input] once [input()] has
    returned [input_string]; its value is [command]. *)
Definition handle_command (input_string : str) : M str :=
  let tokens := split input_string in
  command <- lift (index0 tokens) ;;
  let args := slice1 tokens in
  (if str_eqb command (lit "student") then
     github <- lift (index0 args) ;;
     get_student_by_github github
   else if str_eqb command (lit "new_student") then
     '(first_name, last_name, github) <- lift (unpack3 args) ;;
     make_new_student first_name last_name github
   else
     if negb (str_eqb command (lit "quit")) then
       print (lit "Invalid Entry. Try again.")
     else ret tt) ;;
  ret command.

Definition prompt : str := lit "HBA Database> ".

(** [handle_input()] run on the lines [stdin] still holds.  [input(prompt)]
    writes the prompt, then takes the next line or raises [EOFError] when
    there is none.  The value is the input left unread when the loop ends. *)
Fixpoint handle_input (stdin : list str) : M (list str) :=
  write prompt ;;
  match stdin with
  | [] => lift (Raise EOFError)
  | input_string :: stdin' =>
      command <- handle_command input_string ;;
      if negb (str_eqb command (lit "quit"))
      then handle_input stdin'
      else ret stdin'
  end.

(** The [if __name__ == "__main__":] block.  The call of [handle_input] is
    commented out in the source, so the block connects and closes. *)
Definition main (stdin : list str) : M (list str) :=
  connect_to_db ;;
  (* handle_input() *)
  close ;;
  ret stdin.

End Hackbright.

(* ------------------------------------------------------------------ *)
(** ** Vocabulary of the properties *)

Module Props.
Import Py Sql Hackbright.

(** A word [str.split()] returns unchanged: not empty, no separator in it. *)
Definition is_token (t : str) : bool :=
  match t with
  | [] => false
  | _ => forallb (fun c => negb (is_space c)) t
  end.

(** A line made of separators only (the empty line included). *)
Definition is_blank (s : str) : bool := forallb is_space s.

(** The input line [new_student <first> <last> <handle>]. *)
Definition new_student_line (first_name last_name github : str) : str :=
  lit "new_student " ++ first_name ++ lit " " ++ last_name ++ lit " " ++ github.

(** The WHERE clause of [get_student_by_github], as a test on a row. *)
Definition student_matches (github : str) (s : students.row) : bool :=
  holds (sql_eq (students.github s) (Some github)).

(** The WHERE clause of [get_grade_by_github_title] read on a grades row:
    the row is about this handle and this title. *)
Definition grade_matches (github title : str) (g : grades.row) : bool :=
  holds (sql_and (sql_eq (grades.project_title g) (Some title))
                 (sql_eq (grades.student_github g) (Some github))).

(** A text value an INSERT stores as it is: the driver can send it and it
    fits a [character varying(30)] column. *)
Definition storable (s : str) : bool :=
  forallb encodable s && (List.length s <=? 30)%nat.

(** A number an [integer] column takes. *)
Definition in_integer (n : Z) : bool :=
  ((-2147483648 <=? n) && (n <=? 2147483647))%Z.

(** A small datastore and a fresh process, for concrete runs. *)
Definition jane : students.row :=
  students.Row (Some (lit "Jane")) (Some (lit "Hacker")) (Some (lit "jhacks")).

Definition sample_db : Database :=
  {| students := [jane];
     projects := [projects.Row (Some (lit "Markdown"))
                               (Some (lit "Tools to convert text"))
                               (Some 50%Z)];
     grades := [grades.Row (Some (lit "jhacks")) (Some (lit "Markdown"))
                           (Some 10%Z)] |}.

Definition sample_state : State :=
  {| app_config := []; db_app := false;
     session := {| committed := sample_db; pending := sample_db |};
     stdout := [] |}.

(** The WHERE clause of [get_project_by_title], as a test on a row. *)
Definition project_matches (title : str) (p : projects.row) : bool :=
  holds (sql_eq (projects.title p) (Some title)).

(** A students row as the command loop can write it: three columns, each
    one token of the line. *)
Definition cli_row (r : students.row) : Prop :=
  exists f l h,
    r = students.Row (Some f) (Some l) (Some h) /\
    is_token f = true /\ is_token l = true /\ is_token h = true.

(** What a run of the command loop can have done to the state [st] when it
    leaves [st']: rows added at the end of students, each written by a
    [new_student] line, and every insert committed. *)
Definition loop_effect (st st' : State) : Prop :=
  app_config st' = app_config st /\
  db_app st' = db_app st /\
  projects (pending (session st')) = projects (pending (session st)) /\
  grades (pending (session st')) = grades (pending (session st)) /\
  (exists added,
     students (pending (session st')) =
       students (pending (session st)) ++ added /\
     Forall cli_row added) /\
  (session st' = session st \/
   committed (session st') = pending (session st')).

End Props.

(* ------------------------------------------------------------------ *)
(** ** Properties of the built-ins *)

Import Py Sql Hackbright Props.
Local Open Scope py_scope.

(** Source literals stay folded in goals. *)
Arguments lit : simpl never.

(** One step of a computation, with the plumbing of the monad unfolded. *)
Ltac run :=
  unfold bind, ret, lift, execute_select, execute_insert, commit, close,
         print, write;
  cbn [fst snd stdout session pending committed app_config db_app
       with_stdout with_session fetchone hd_error unpack_row unpack3
       index0 slice1 tl].

Section Strings.

Lemma str_eqb_refl (a : str) : str_eqb a a = true.
Proof.
  induction a as [|c a IH]; simpl; [reflexivity|].
  now rewrite N.eqb_refl, IH.
Qed.

Lemma str_eqb_eq (a b : str) : str_eqb a b = true <-> a = b.
Proof.
  split; [|intros ->; apply str_eqb_refl].
  revert b; induction a as [|c a IH]; intros [|d b]; simpl; try easy.
  intros H; apply andb_prop in H as [Hc Hab].
  apply N.eqb_eq in Hc; f_equal; auto.
Qed.

Lemma str_eqb_neq (a b : str) : a <> b -> str_eqb a b = false.
Proof.
  intros H; destruct (str_eqb a b) eqn:E; [|reflexivity].
  now apply str_eqb_eq in E.
Qed.

(** Reading a run of non-separators only extends the current token. *)
Lemma split_from_word (w : str) :
  forallb (fun c => negb (is_space c)) w = true ->
  forall tok rest, split_from tok (w ++ rest) = split_from (tok ++ w) rest.
Proof.
  induction w as [|c w IH]; intros Hw tok rest; simpl.
  - now rewrite app_nil_r.
  - simpl in Hw; apply andb_prop in Hw as [Hc Hw].
    apply negb_true_iff in Hc; rewrite Hc.
    rewrite IH by assumption. now rewrite <- app_assoc.
Qed.

(** A separator closes a token that has begun. *)
Lemma split_from_sep (c : char) (tok rest : str) :
  is_space c = true -> tok <> [] ->
  split_from tok (c :: rest) = tok :: split_from [] rest.
Proof.
  intros Hc Htok; simpl; rewrite Hc.
  destruct tok; [contradiction|reflexivity].
Qed.

Lemma split_from_end (tok : str) :
  tok <> [] -> split_from tok [] = [tok].
Proof. destruct tok; [contradiction|reflexivity]. Qed.

Lemma is_token_inv (t : str) :
  is_token t = true ->
  t <> [] /\ forallb (fun c => negb (is_space c)) t = true.
Proof. destruct t; [discriminate|]. intros H; split; [discriminate|exact H]. Qed.

(** A token followed by a space and more text splits off as the first word. *)
Lemma split_token_space (t rest : str) :
  is_token t = true ->
  split (t ++ lit " " ++ rest) = t :: split rest.
Proof.
  intros Ht; apply is_token_inv in Ht as [Hne Hw].
  unfold split. rewrite split_from_word by assumption.
  simpl app. now rewrite split_from_sep.
Qed.

Lemma split_token (t : str) : is_token t = true -> split t = [t].
Proof.
  intros Ht; apply is_token_inv in Ht as [Hne Hw].
  unfold split. rewrite <- (app_nil_r t) at 1.
  rewrite split_from_word by assumption. now apply split_from_end.
Qed.

Lemma split_blank (s : str) : is_blank s = true -> split s = [].
Proof.
  unfold split, is_blank.
  induction s as [|c s IH]; simpl; [reflexivity|].
  intros H; apply andb_prop in H as [Hc Hs]. rewrite Hc. auto.
Qed.

Lemma split_new_student_line (f l h : str) :
  is_token f = true -> is_token l = true -> is_token h = true ->
  split (new_student_line f l h) = [lit "new_student"; f; l; h].
Proof.
  intros Hf Hl Hh. unfold new_student_line.
  change (lit "new_student " ++ f ++ lit " " ++ l ++ lit " " ++ h)
    with (lit "new_student" ++ lit " " ++ f ++ lit " " ++ l ++ lit " " ++ h).
  rewrite split_token_space by reflexivity.
  rewrite !split_token_space by assumption.
  now rewrite split_token.
Qed.

End Strings.

(* ------------------------------------------------------------------ *)
(** ** Properties of the queries *)

Section Queries.

Lemma holds_sql_eq_param (v : option str) (p : str) :
  holds (sql_eq v (Some p)) = true <-> v = Some p.
Proof.
  destruct v as [x|]; simpl; [|easy].
  destruct (str_eqb x p) eqn:E.
  - apply str_eqb_eq in E; subst; easy.
  - split; [discriminate|]. intros [= ->]. now rewrite str_eqb_refl in E.
Qed.

Lemma holds_sql_eq_cols (a b : option str) :
  holds (sql_eq a b) = true <-> exists x, a = Some x /\ b = Some x.
Proof.
  destruct a as [x|], b as [y|]; simpl;
    try (split; [discriminate|intros (z & Ha & Hb); discriminate]).
  destruct (str_eqb x y) eqn:E.
  - apply str_eqb_eq in E; subst. split; [eauto|reflexivity].
  - split; [discriminate|]. intros (z & [= ->] & [= ->]).
    now rewrite str_eqb_refl in E.
Qed.

Lemma holds_sql_and (p q : tri) :
  holds (sql_and p q) = holds p && holds q.
Proof. destruct p as [[|]|], q as [[|]|]; reflexivity. Qed.

Lemma grade_matches_iff (h t : str) (g : grades.row) :
  grade_matches h t g = true <->
  grades.student_github g = Some h /\ grades.project_title g = Some t.
Proof.
  unfold grade_matches. rewrite holds_sql_and, andb_true_iff.
  rewrite !holds_sql_eq_param. tauto.
Qed.

Lemma filter_nil_iff {A} (f : A -> bool) (l : list A) :
  filter f l = [] <-> forall x, In x l -> f x = false.
Proof.
  induction l as [|a l IH]; simpl; [easy|].
  destruct (f a) eqn:E; split.
  - discriminate.
  - intros H. specialize (H a (or_introl eq_refl)). congruence.
  - intros H x [<-|Hx]; [assumption|]. now apply IH.
  - intros H. apply IH. auto.
Qed.

Lemma select_student_filter (db : Database) (h : str) :
  select_student db h =
  map (fun s => (students.first_name s, students.last_name s, students.github s))
      (filter (student_matches h) (students db)).
Proof. reflexivity. Qed.

(** The rows the left join contributes for one student, after the WHERE
    clause: the student's grade rows that match handle and title. *)
Lemma where_on_left_join_row (gs : list grades.row) (h t : str) (s : students.row) :
  filter (fun sg : students.row * option grades.row =>
            holds (sql_and (sql_eq (col grades.project_title (snd sg)) (Some t))
                           (sql_eq (col grades.student_github (snd sg)) (Some h))))
         (match filter (fun g => holds (sql_eq (grades.student_github g)
                                               (students.github s))) gs with
          | [] => [(s, None)]
          | matching => map (fun g => (s, Some g)) matching
          end) =
  map (fun g => (s, Some g))
      (filter (grade_matches h t)
              (filter (fun g => holds (sql_eq (grades.student_github g)
                                              (students.github s))) gs)).
Proof.
  destruct (filter _ gs) as [|g0 ms]; [reflexivity|].
  generalize (g0 :: ms) as l. clear.
  induction l as [|g l IH]; simpl; [reflexivity|].
  fold (grade_matches h t g).
  destruct (grade_matches h t g); simpl; now rewrite IH.
Qed.

(** Among the grade rows joined to a student, those matching the handle
    are all the matching rows when the student has that handle, and none
    otherwise. *)
Lemma where_after_on (gs : list grades.row) (h t : str) (s : students.row) :
  filter (grade_matches h t)
         (filter (fun g => holds (sql_eq (grades.student_github g)
                                         (students.github s))) gs) =
  if student_matches h s then filter (grade_matches h t) gs else [].
Proof.
  destruct (student_matches h s) eqn:Hs.
  - apply holds_sql_eq_param in Hs.
    induction gs as [|g gs IH]; simpl; [reflexivity|].
    destruct (grade_matches h t g) eqn:Hg.
    + assert (Hon : holds (sql_eq (grades.student_github g) (students.github s)) = true).
      { apply holds_sql_eq_cols. apply grade_matches_iff in Hg as [Hg _]. eauto. }
      rewrite Hon. simpl. rewrite Hg. now rewrite IH.
    + destruct (holds _); simpl; [rewrite Hg|]; exact IH.
  - apply filter_nil_iff. intros g Hg.
    apply filter_In in Hg as [_ Hon].
    destruct (grade_matches h t g) eqn:Hg; [|reflexivity].
    apply grade_matches_iff in Hg as [Hg _].
    apply holds_sql_eq_cols in Hon as (x & Hx & Hsx).
    assert (student_matches h s = true) by (apply holds_sql_eq_param; congruence).
    congruence.
Qed.

(** The rows of the grade query, student by student. *)
Lemma select_grade_rows (db : Database) (h t : str) :
  select_grade db h t =
  flat_map
    (fun s =>
       if student_matches h s
       then map (fun g => (students.first_name s, students.last_name s,
                           grades.grade g))
                (filter (grade_matches h t) (grades db))
       else [])
    (students db).
Proof.
  unfold select_grade, left_join_grades.
  induction (students db) as [|s ss IH]; [reflexivity|].
  cbn [flat_map]. rewrite filter_app, map_app, IH. f_equal.
  rewrite where_on_left_join_row, where_after_on, map_map.
  destruct (student_matches h s); reflexivity.
Qed.





End Queries.

(* ------------------------------------------------------------------ *)
(** ** Properties of the inserts *)

Section Inserts.

Lemma varchar_fits (n : nat) (s : str) :
  (List.length s <=? n)%nat = true -> varchar n s = Some s.
Proof.
  intros H. apply Nat.leb_le in H. unfold varchar.
  rewrite skipn_all2 by assumption. cbn [forallb].
  now rewrite firstn_all2.
Qed.

Lemma varchar_cut (n : nat) (s s' : str) :
  varchar n s = Some s' -> s' = firstn n s.
Proof.
  unfold varchar. destruct (forallb (N.eqb 32) (skipn n s)); [|discriminate].
  now intros [= <-].
Qed.

(** A token is stored whole or not at all: nothing of it can be cut. *)
Lemma varchar_token (n : nat) (s s' : str) :
  is_token s = true -> varchar n s = Some s' -> s' = s.
Proof.
  intros Htok. apply is_token_inv in Htok as [_ Hw].
  unfold varchar.
  destruct (forallb (N.eqb 32) (skipn n s)) eqn:Hcut; [|discriminate].
  intros [= <-].
  rewrite <- (firstn_skipn n s) in Hw. rewrite forallb_app in Hw.
  apply andb_prop in Hw as [_ Hw].
  destruct (skipn n s) as [|c rest] eqn:Hskip.
  - rewrite <- (firstn_skipn n s) at 2. rewrite Hskip. now rewrite app_nil_r.
  - cbn [forallb] in Hcut, Hw. apply andb_prop in Hcut as [Hc _].
    apply andb_prop in Hw as [Hc' _]. apply N.eqb_eq in Hc. subst c.
    discriminate Hc'.
Qed.

Lemma storable_inv (s : str) :
  storable s = true -> sendable (Text s) = true /\ varchar 30 s = Some s.
Proof.
  unfold storable. intros H. apply andb_prop in H as [Hs Hl].
  split; [exact Hs|now apply varchar_fits].
Qed.

Lemma in_integer_inv (n : Z) : in_integer n = true -> integer n = Some n.
Proof. unfold in_integer, integer. now intros ->. Qed.

(** The two write accessors, by cases on what the driver and the datastore
    make of the values. *)
Lemma make_new_student_cases (f l h : str) (st : State) :
  make_new_student f l h st =
  if forallb sendable [Text f; Text l; Text h] then
    match insert_student (pending (session st)) f l h with
    | Ok db =>
        (Ok tt,
         {| app_config := app_config st;
            db_app := db_app st;
            session := {| committed := db; pending := db |};
            stdout := stdout st ++ (lit "Successfully added " ++ f ++ lit " "
                                    ++ l ++ lit ".") ++ nl |})
    | Raise e => (Raise e, st)
    end
  else (Raise ValueError, st).
Proof.
  unfold make_new_student, bind, execute_insert.
  destruct (forallb sendable _); [|reflexivity].
  destruct (insert_student _ f l h); reflexivity.
Qed.

Lemma assign_grade_cases (h t : str) (n : Z) (st : State) :
  assign_grade h t n st =
  if forallb sendable [Text h; Text t; Int n] then
    match insert_grade (pending (session st)) h t n with
    | Ok db =>
        (Ok tt,
         {| app_config := app_config st;
            db_app := db_app st;
            session := {| committed := db; pending := db |};
            stdout := stdout st ++ (lit "Successfully graded " ++ h ++ lit "'s "
                                    ++ t ++ lit " project " ++ str_of_int n
                                    ++ lit " points.") ++ nl |})
    | Raise e => (Raise e, st)
    end
  else (Raise ValueError, st).
Proof.
  unfold assign_grade, bind, execute_insert.
  destruct (forallb sendable _); [|reflexivity].
  destruct (insert_grade _ h t n); reflexivity.
Qed.

(** What an accepted insert has stored. *)
Lemma insert_student_stored (db db' : Database) (f l h : str) :
  insert_student db f l h = Ok db' ->
  db' = store_student db (firstn 30 f) (firstn 30 l) (firstn 30 h) /\
  varchar 30 f = Some (firstn 30 f) /\
  varchar 30 l = Some (firstn 30 l) /\
  varchar 30 h = Some (firstn 30 h).
Proof.
  unfold insert_student.
  destruct (varchar 30 f) as [f'|] eqn:Hf; [|discriminate].
  destruct (varchar 30 l) as [l'|] eqn:Hl; [|discriminate].
  destruct (varchar 30 h) as [h'|] eqn:Hh; [|discriminate].
  intros [= <-].
  apply varchar_cut in Hf as ->. apply varchar_cut in Hl as ->.
  apply varchar_cut in Hh as ->. auto.
Qed.


(** Values within the bounds of the columns are stored as they are. *)
Lemma make_new_student_runs (f l h : str) (st : State) :
  storable f = true -> storable l = true -> storable h = true ->
  make_new_student f l h st =
  (Ok tt,
   {| app_config := app_config st;
      db_app := db_app st;
      session := {| committed := store_student (pending (session st)) f l h;
                    pending := store_student (pending (session st)) f l h |};
      stdout := stdout st ++ (lit "Successfully added " ++ f ++ lit " " ++ l
                              ++ lit ".") ++ nl |}).
Proof.
  intros Hf Hl Hh.
  apply storable_inv in Hf as [Sf Vf]. apply storable_inv in Hl as [Sl Vl].
  apply storable_inv in Hh as [Sh Vh].
  rewrite make_new_student_cases. cbn [forallb]. rewrite Sf, Sl, Sh.
  unfold insert_student. now rewrite Vf, Vl, Vh.
Qed.

Lemma assign_grade_runs (h t : str) (n : Z) (st : State) :
  storable h = true -> storable t = true -> in_integer n = true ->
  assign_grade h t n st =
  (Ok tt,
   {| app_config := app_config st;
      db_app := db_app st;
      session := {| committed := store_grade (pending (session st)) h t n;
                    pending := store_grade (pending (session st)) h t n |};
      stdout := stdout st ++ (lit "Successfully graded " ++ h ++ lit "'s " ++ t
                              ++ lit " project " ++ str_of_int n
                              ++ lit " points.") ++ nl |}).
Proof.
  intros Hh Ht Hn.
  apply storable_inv in Hh as [Sh Vh]. apply storable_inv in Ht as [St Vt].
  apply in_integer_inv in Hn.
  rewrite assign_grade_cases. cbn [forallb sendable]. cbn [sendable] in Sh, St.
  rewrite Sh, St. unfold insert_grade. now rewrite Vh, Vt, Hn.
Qed.

End Inserts.

(* ------------------------------------------------------------------ *)
(** ** Properties of the accessors *)

Section Accessors.



(** What [get_student_by_github] prints when the cursor holds one row. *)
Lemma get_student_single_row (st : State) (h : str) (r : students.row) :
  filter (student_matches h) (students (pending (session st))) = [r] ->
  get_student_by_github h st =
  (Ok tt,
   with_stdout st
     (stdout st ++ lit "Student: " ++ format_text (students.first_name r)
      ++ lit " " ++ format_text (students.last_name r) ++ nl
      ++ lit "GitHub account: " ++ h ++ nl)).
Proof.
  intros H.
  assert (Hr : students.github r = Some h).
  { apply holds_sql_eq_param. change (student_matches h r = true).
    assert (Hin : In r (filter (student_matches h)
                          (students (pending (session st)))))
      by (rewrite H; now left).
    now apply filter_In in Hin. }
  unfold get_student_by_github; run.
  rewrite select_student_filter, H. cbn [map hd_error]. run.
  rewrite Hr. cbn [format_text].
  now rewrite <- !app_assoc.
Qed.

(** C8.  When exactly one students row matches the handle,
    [get_student_by_github] prints [Student: {first_name} {last_name}] on
    one line and [GitHub account: {handle}] on the next, with the stored
    names of that row, and changes nothing else. *)
Theorem get_student_by_github_prints (st : State) (h : str) (r : students.row) :
  filter (student_matches h) (students (pending (session st))) = [r] ->
  get_student_by_github h st =
  (Ok tt,
   with_stdout st
     (stdout st ++ lit "Student: " ++ format_text (students.first_name r)
      ++ lit " " ++ format_text (students.last_name r) ++ nl
      ++ lit "GitHub account: " ++ h ++ nl)).
Proof. apply get_student_single_row. Qed.

Lemma get_student_by_github_prints_witness :
  get_student_by_github (lit "jhacks") sample_state =
  (Ok tt,
   with_stdout sample_state
     (lit "Student: Jane Hacker" ++ nl ++ lit "GitHub account: jhacks" ++ nl)).
Proof.
  apply (get_student_by_github_prints sample_state (lit "jhacks") jane).
  reflexivity.
Defined.

Lemma filter_appended_student (db : Database) (f l h : str) :
  (forall s, In s (students db) -> students.github s <> Some h) ->
  filter (student_matches h) (students (store_student db f l h)) =
  [students.Row (Some f) (Some l) (Some h)].
Proof.
  intros Hfresh. cbn [store_student students]. rewrite filter_app.
  replace (filter (student_matches h) (students db)) with (@nil students.row).
  - cbn [filter app]. unfold student_matches at 1. cbn [students.github sql_eq].
    now rewrite str_eqb_refl.
  - symmetry. apply filter_nil_iff. intros s Hs.
    destruct (student_matches h s) eqn:E; [|reflexivity].
    apply holds_sql_eq_param in E. now apply Hfresh in Hs.
Qed.

(** C2 (as amended).  For a first name, a last name and a handle the
    datastore stores as they are (text the driver can send, of at most 30
    characters), [make_new_student(first, last, handle)] followed at once
    by [get_student_by_github(handle)] succeeds and prints, after the
    confirmation of the insert, the names just inserted, when no students
    row had that handle before. *)
Theorem make_new_student_then_get (st : State) (first last handle : str) :
  storable first = true -> storable last = true -> storable handle = true ->
  (forall s, In s (students (pending (session st))) ->
             students.github s <> Some handle) ->
  (make_new_student first last handle ;; get_student_by_github handle) st =
  (Ok tt,
   {| app_config := app_config st;
      db_app := db_app st;
      session :=
        {| committed := store_student (pending (session st)) first last handle;
           pending := store_student (pending (session st)) first last handle |};
      stdout :=
        stdout st
        ++ lit "Successfully added " ++ first ++ lit " " ++ last ++ lit "." ++ nl
        ++ lit "Student: " ++ first ++ lit " " ++ last ++ nl
        ++ lit "GitHub account: " ++ handle ++ nl |}).
Proof.
  intros Hf Hl Hh Hfresh.
  unfold bind at 1. rewrite make_new_student_runs by assumption.
  rewrite get_student_single_row
    with (r := students.Row (Some first) (Some last) (Some handle))
    by (apply filter_appended_student, Hfresh).
  unfold with_stdout.
  cbn [fst snd stdout session pending committed app_config db_app
       students.first_name students.last_name format_text].
  now rewrite <- !app_assoc.
Qed.

Lemma make_new_student_then_get_witness :
  fst ((make_new_student (lit "Sarah") (lit "Developer") (lit "sdevelops") ;;
        get_student_by_github (lit "sdevelops")) sample_state) = Ok tt /\
  stdout (snd ((make_new_student (lit "Sarah") (lit "Developer") (lit "sdevelops") ;;
                get_student_by_github (lit "sdevelops")) sample_state)) =
  lit "Successfully added Sarah Developer." ++ nl
  ++ lit "Student: Sarah Developer" ++ nl
  ++ lit "GitHub account: sdevelops" ++ nl.
Proof.
  rewrite (make_new_student_then_get sample_state (lit "Sarah")
             (lit "Developer") (lit "sdevelops")).
  - split; reflexivity.
  - reflexivity.
  - reflexivity.
  - reflexivity.
  - intros s [<-|[]]. discriminate.
Defined.

(** C2 as stated fails: a first name of 31 characters does not fit its
    [character varying(30)] column; the INSERT raises, no row is written
    and nothing is printed, so the lookup is never reached. *)
Lemma make_new_student_name_too_long :
  List.length (lit "Maximiliana-Alexandrina-Josefax") = 31 /\
  (make_new_student (lit "Maximiliana-Alexandrina-Josefax") (lit "Hacker")
                    (lit "mhacks") ;;
   get_student_by_github (lit "mhacks")) sample_state =
  (Raise DataError, sample_state).
Proof. split; reflexivity. Qed.

Lemma flat_map_singletons {A B} (f : A -> bool) (k : A -> B) (l : list A) :
  flat_map (fun x => if f x then [k x] else []) l = map k (filter f l).
Proof.
  induction l as [|a l IH]; [reflexivity|].
  cbn [flat_map filter]. destruct (f a); cbn [map app]; now rewrite IH.
Qed.

Lemma filter_appended_grade (db : Database) (h t : str) (n : Z) :
  (forall g, In g (grades db) ->
     ~ (grades.student_github g = Some h /\ grades.project_title g = Some t)) ->
  filter (grade_matches h t) (grades (store_grade db h t n)) =
  [grades.Row (Some h) (Some t) (Some n)].
Proof.
  intros Hfresh. cbn [store_grade grades]. rewrite filter_app.
  replace (filter (grade_matches h t) (grades db)) with (@nil grades.row).
  - cbn [filter app]. unfold grade_matches at 1.
    cbn [grades.student_github grades.project_title sql_eq].
    now rewrite !str_eqb_refl.
  - symmetry. apply filter_nil_iff. intros g Hg.
    destruct (grade_matches h t g) eqn:E; [|reflexivity].
    apply grade_matches_iff in E. now apply Hfresh in Hg.
Qed.

(** After the insert of a first grade for the pair, the grade query has one
    row per student of that handle, each with the new grade. *)
Lemma select_grade_after_insert (db : Database) (h t : str) (n : Z) :
  (forall g, In g (grades db) ->
     ~ (grades.student_github g = Some h /\ grades.project_title g = Some t)) ->
  select_grade (store_grade db h t n) h t =
  map (fun s => (students.first_name s, students.last_name s, Some n))
      (filter (student_matches h) (students db)).
Proof.
  intros Hfresh. rewrite select_grade_rows.
  rewrite filter_appended_grade by assumption.
  cbn [map grades.grade]. change (students (store_grade db h t n)) with (students db).
  apply flat_map_singletons.
Qed.

Lemma filter_first {A} (f : A -> bool) (l : list A) :
  (exists x, In x l /\ f x = true) ->
  exists x rest, filter f l = x :: rest /\ In x l /\ f x = true.
Proof.
  intros (x & Hx & Hfx).
  assert (Hin : In x (filter f l)) by (apply filter_In; auto).
  destruct (filter f l) as [|y rest] eqn:E; [contradiction|].
  exists y, rest. split; [reflexivity|].
  assert (Hy : In y (filter f l)) by (rewrite E; now left).
  now apply filter_In in Hy.
Qed.

(** C3 (as amended).  For a handle and a title the datastore stores as they
    are (text the driver can send, of at most 30 characters) and a grade in
    the range of an [integer] column, [assign_grade(handle, title, grade)]
    followed by [get_grade_by_github_title(handle, title)] succeeds and
    prints, after the confirmation of the insert, the line of a student
    with that handle ending in the assigned grade and [ points], when a
    students row has the handle and no grades row was there for the pair
    before. *)
Theorem assign_grade_then_get (st : State) (handle title : str) (grade : Z) :
  storable handle = true -> storable title = true ->
  in_integer grade = true ->
  (exists s, In s (students (pending (session st))) /\
             students.github s = Some handle) ->
  (forall g, In g (grades (pending (session st))) ->
     ~ (grades.student_github g = Some handle /\
        grades.project_title g = Some title)) ->
  exists s,
    In s (students (pending (session st))) /\
    students.github s = Some handle /\
    (assign_grade handle title grade ;;
     get_grade_by_github_title handle title) st =
    (Ok tt,
     {| app_config := app_config st;
        db_app := db_app st;
        session :=
          {| committed := store_grade (pending (session st)) handle title grade;
             pending := store_grade (pending (session st)) handle title grade |};
        stdout :=
          stdout st
          ++ lit "Successfully graded " ++ handle ++ lit "'s " ++ title
          ++ lit " project " ++ str_of_int grade ++ lit " points." ++ nl
          ++ format_text (students.first_name s) ++ lit " "
          ++ format_text (students.last_name s) ++ lit "'s " ++ title
          ++ lit " project received " ++ str_of_int grade ++ lit " points"
          ++ nl |}).
Proof.
  intros Hh Ht Hn Hstudent Hfresh.
  destruct (filter_first (student_matches handle)
              (students (pending (session st)))) as (s & rest & Hf & Hin & Hs).
  { destruct Hstudent as (s & Hin & Hs). exists s. split; [assumption|].
    now apply holds_sql_eq_param. }
  exists s. split; [assumption|]. split; [now apply holds_sql_eq_param|].
  unfold bind at 1. rewrite assign_grade_runs by assumption.
  unfold get_grade_by_github_title. run.
  rewrite select_grade_after_insert by assumption. rewrite Hf.
  cbn [map hd_error]. run. cbn [format_int].
  now rewrite <- !app_assoc.
Qed.

Lemma assign_grade_then_get_witness :
  exists s,
    In s (students sample_db) /\
    students.github s = Some (lit "jhacks") /\
    (assign_grade (lit "jhacks") (lit "Markdown Challenge") 98 ;;
     get_grade_by_github_title (lit "jhacks") (lit "Markdown Challenge"))
      sample_state =
    (Ok tt,
     {| app_config := [];
        db_app := false;
        session :=
          {| committed := store_grade sample_db (lit "jhacks")
                            (lit "Markdown Challenge") 98;
             pending := store_grade sample_db (lit "jhacks")
                          (lit "Markdown Challenge") 98 |};
        stdout :=
          lit "Successfully graded jhacks's Markdown Challenge project 98 points."
          ++ nl
          ++ format_text (students.first_name s) ++ lit " "
          ++ format_text (students.last_name s)
          ++ lit "'s Markdown Challenge project received 98 points" ++ nl |}).
Proof.
  apply (assign_grade_then_get sample_state (lit "jhacks")
           (lit "Markdown Challenge") 98).
  - reflexivity.
  - reflexivity.
  - reflexivity.
  - exists jane. split; [now left|reflexivity].
  - intros g [<-|[]] [_ H]. discriminate H.
Defined.

(** C3 as stated fails: the grade 2147483648 is outside the [integer]
    column; the INSERT raises, no row is written and nothing is printed,
    so the lookup is never reached. *)
Lemma assign_grade_out_of_range :
  (assign_grade (lit "jhacks") (lit "Markdown Challenge") 2147483648 ;;
   get_grade_by_github_title (lit "jhacks") (lit "Markdown Challenge"))
    sample_state =
  (Raise DataError, sample_state).
Proof. reflexivity. Qed.



End Accessors.

(* ------------------------------------------------------------------ *)
(** ** Properties of the command loop *)

Section CommandLoop.

(** One turn of the loop: prompt, read, dispatch, test. *)
Lemma handle_input_step (input_string : str) (stdin : list str) (st : State) :
  handle_input (input_string :: stdin) st =
  (write prompt ;;
   command <- handle_command input_string ;;
   if negb (str_eqb command (lit "quit")) then handle_input stdin
   else ret stdin) st.
Proof. reflexivity. Qed.

Lemma with_stdout_twice (st : State) (a b : str) :
  with_stdout (with_stdout st a) b = with_stdout st b.
Proof. reflexivity. Qed.

Lemma handle_command_invalid (line command : str) (args : list str) (st : State) :
  split line = command :: args ->
  command <> lit "student" -> command <> lit "new_student" ->
  command <> lit "quit" ->
  handle_command line st =
  (Ok command,
   with_stdout st (stdout st ++ lit "Invalid Entry. Try again." ++ nl)).
Proof.
  intros Hsplit H1 H2 H3. unfold handle_command. rewrite Hsplit. run.
  rewrite (str_eqb_neq _ _ H1), (str_eqb_neq _ _ H2), (str_eqb_neq _ _ H3).
  reflexivity.
Qed.

Lemma handle_command_quit (line : str) (args : list str) (st : State) :
  split line = lit "quit" :: args ->
  handle_command line st = (Ok (lit "quit"), st).
Proof. intros Hsplit. unfold handle_command. now rewrite Hsplit. Qed.

(** C6.  A line whose first token is none of [student], [new_student] and
    [quit] leaves the session as it was, prints [Invalid Entry. Try again.]
    and the loop goes on with the next line; a line whose first token is
    [quit] ends the loop with nothing printed after the prompt and the
    session as it was. *)
Theorem unrecognized_command_and_quit
    (line command : str) (args stdin : list str) (st : State) :
  split line = command :: args ->
  (command <> lit "student" -> command <> lit "new_student" ->
   command <> lit "quit" ->
   handle_command line st =
     (Ok command,
      with_stdout st (stdout st ++ lit "Invalid Entry. Try again." ++ nl)) /\
   handle_input (line :: stdin) st =
     handle_input stdin
       (with_stdout st
          (stdout st ++ prompt ++ lit "Invalid Entry. Try again." ++ nl))) /\
  (command = lit "quit" ->
   handle_input (line :: stdin) st =
     (Ok stdin, with_stdout st (stdout st ++ prompt))).
Proof.
  intros Hsplit. split.
  - intros H1 H2 H3. split; [now apply handle_command_invalid with args|].
    rewrite handle_input_step. unfold bind at 1. unfold write at 1.
    unfold bind at 1.
    rewrite (handle_command_invalid line command args) by assumption.
    rewrite (str_eqb_neq _ _ H3). cbn [negb stdout with_stdout].
    rewrite with_stdout_twice. now rewrite <- app_assoc.
  - intros ->. rewrite handle_input_step. unfold bind at 1. unfold write at 1.
    unfold bind at 1.
    now rewrite (handle_command_quit line args).
Qed.

Lemma unrecognized_command_and_quit_witness :
  (handle_command (lit "foobar") sample_state =
     (Ok (lit "foobar"),
      with_stdout sample_state (lit "Invalid Entry. Try again." ++ nl)) /\
   handle_input [lit "foobar"; lit "quit"] sample_state =
     handle_input [lit "quit"]
       (with_stdout sample_state
          (prompt ++ lit "Invalid Entry. Try again." ++ nl))) /\
  handle_input [lit "quit now"; lit "student jhacks"] sample_state =
    (Ok [lit "student jhacks"], with_stdout sample_state prompt).
Proof.
  split.
  - apply (unrecognized_command_and_quit (lit "foobar") (lit "foobar") []
             [lit "quit"] sample_state); [reflexivity | | | ]; discriminate.
  - apply (unrecognized_command_and_quit (lit "quit now") (lit "quit")
             [lit "now"] [lit "student jhacks"] sample_state); reflexivity.
Defined.

(** C9.  A [new_student] line with fewer than three further tokens makes
    the loop raise [ValueError] on the unpack of the arguments; only the
    prompt has been printed and the session is as it was: no row is
    inserted. *)
Theorem new_student_too_few_arguments
    (line : str) (args stdin : list str) (st : State) :
  split line = lit "new_student" :: args ->
  List.length args < 3 ->
  handle_input (line :: stdin) st =
  (Raise ValueError, with_stdout st (stdout st ++ prompt)).
Proof.
  intros Hsplit Hlen. rewrite handle_input_step.
  unfold bind at 1. unfold write at 1. unfold bind at 1.
  unfold handle_command. rewrite Hsplit. run.
  change (str_eqb (lit "new_student") (lit "student")) with false.
  change (str_eqb (lit "new_student") (lit "new_student")) with true.
  cbv iota.
  destruct args as [|a [|b [|c [|d args]]]]; simpl in Hlen; try lia;
    reflexivity.
Qed.

Lemma new_student_too_few_arguments_witness :
  handle_input [lit "new_student Jane Hacker"; lit "quit"] sample_state =
  (Raise ValueError, with_stdout sample_state prompt).
Proof.
  apply (new_student_too_few_arguments (lit "new_student Jane Hacker")
           [lit "Jane"; lit "Hacker"] [lit "quit"] sample_state).
  - reflexivity.
  - simpl; lia.
Defined.

(** C10.  A line of separators only (the empty line included) has no
    token: the loop raises [IndexError] on [tokens[0]], having printed the
    prompt and nothing else; it neither prompts again nor prints
    [Invalid Entry. Try again.]. *)
Theorem blank_line_raises_index_error
    (line : str) (stdin : list str) (st : State) :
  is_blank line = true ->
  split line = [] /\
  handle_input (line :: stdin) st =
  (Raise IndexError, with_stdout st (stdout st ++ prompt)).
Proof.
  intros Hblank. apply split_blank in Hblank. split; [assumption|].
  rewrite handle_input_step.
  unfold bind at 1. unfold write at 1. unfold bind at 1.
  unfold handle_command. now rewrite Hblank.
Qed.

Lemma blank_line_raises_index_error_witness :
  split (lit "   ") = [] /\
  handle_input [lit "   "; lit "quit"] sample_state =
  (Raise IndexError, with_stdout sample_state prompt).
Proof.
  apply (blank_line_raises_index_error (lit "   ") [lit "quit"] sample_state).
  reflexivity.
Defined.

Lemma handle_command_new_student (line f l h : str) (st : State) :
  split line = [lit "new_student"; f; l; h] ->
  handle_command line st =
  match make_new_student f l h st with
  | (Ok _, st') => (Ok (lit "new_student"), st')
  | (Raise e, st') => (Raise e, st')
  end.
Proof.
  intros Hsplit. unfold handle_command. rewrite Hsplit. run.
  change (str_eqb (lit "new_student") (lit "student")) with false.
  change (str_eqb (lit "new_student") (lit "new_student")) with true.
  cbv iota. destruct (make_new_student f l h st) as [[[]|e] st']; reflexivity.
Qed.

(** C5 (as amended).  For a first name, a last name and a handle that are
    each one token (not empty, no whitespace), the line
    [new_student <first> <last> <handle>] makes the loop run exactly
    [make_new_student(first, last, handle)]: the same row is inserted and
    committed, the same confirmation is printed, and the loop goes on; when
    the insert raises, the loop raises the same exception in the same
    state.  For values the datastore stores as they are the call returns
    normally. *)
Theorem new_student_command_is_make_new_student
    (first last handle : str) (stdin : list str) (st : State) :
  is_token first = true -> is_token last = true -> is_token handle = true ->
  handle_command (new_student_line first last handle) st =
    match make_new_student first last handle st with
    | (Ok _, st') => (Ok (lit "new_student"), st')
    | (Raise e, st') => (Raise e, st')
    end /\
  handle_input (new_student_line first last handle :: stdin) st =
    (write prompt ;; make_new_student first last handle ;; handle_input stdin) st /\
  (storable first = true -> storable last = true -> storable handle = true ->
   handle_command (new_student_line first last handle) st =
     (Ok (lit "new_student"), snd (make_new_student first last handle st)) /\
   fst (make_new_student first last handle st) = Ok tt).
Proof.
  intros Hf Hl Hh.
  pose proof (split_new_student_line first last handle Hf Hl Hh) as Hsplit.
  split; [now apply handle_command_new_student|]. split.
  - rewrite handle_input_step. unfold bind at 1 3. unfold write.
    unfold bind at 1 2.
    rewrite (handle_command_new_student _ first last handle) by assumption.
    destruct (make_new_student first last handle _) as [[[]|e] st'];
      reflexivity.
  - intros Sf Sl Sh.
    rewrite (handle_command_new_student _ first last handle) by assumption.
    rewrite make_new_student_runs by assumption. split; reflexivity.
Qed.

Lemma new_student_command_is_make_new_student_witness :
  handle_input [new_student_line (lit "Jane") (lit "Hacker") (lit "jhacks");
                lit "quit"] sample_state =
    (write prompt ;;
     make_new_student (lit "Jane") (lit "Hacker") (lit "jhacks") ;;
     handle_input [lit "quit"]) sample_state /\
  handle_command (new_student_line (lit "Jane") (lit "Hacker") (lit "jhacks"))
                 sample_state =
    (Ok (lit "new_student"),
     snd (make_new_student (lit "Jane") (lit "Hacker") (lit "jhacks")
                           sample_state)) /\
  fst (make_new_student (lit "Jane") (lit "Hacker") (lit "jhacks") sample_state)
    = Ok tt.
Proof.
  destruct (new_student_command_is_make_new_student (lit "Jane") (lit "Hacker")
              (lit "jhacks") [lit "quit"] sample_state)
    as (_ & Hloop & Hok); try reflexivity.
  split; [exact Hloop|]. apply Hok; reflexivity.
Defined.

(** C5 as stated fails: a first name with a space in it is split into two
    tokens, the unpack of four arguments raises [ValueError] and no row is
    inserted, while the direct call inserts the row and prints. *)
Lemma new_student_line_name_with_space :
  handle_command
    (new_student_line (lit "Mary Ann") (lit "Hacker") (lit "mhacks"))
    sample_state = (Raise ValueError, sample_state) /\
  make_new_student (lit "Mary Ann") (lit "Hacker") (lit "mhacks") sample_state =
    (Ok tt,
     {| app_config := [];
        db_app := false;
        session :=
          {| committed := store_student sample_db (lit "Mary Ann")
                            (lit "Hacker") (lit "mhacks");
             pending := store_student sample_db (lit "Mary Ann")
                          (lit "Hacker") (lit "mhacks") |};
        stdout := lit "Successfully added Mary Ann Hacker." ++ nl |}) /\
  snd (handle_command
         (new_student_line (lit "Mary Ann") (lit "Hacker") (lit "mhacks"))
         sample_state)
  <> snd (make_new_student (lit "Mary Ann") (lit "Hacker") (lit "mhacks")
                           sample_state).
Proof.
  split; [reflexivity|]. split; [reflexivity|].
  intros H. apply (f_equal stdout) in H. vm_compute in H. discriminate H.
Qed.

(** Output is only ever appended. *)
Lemma get_student_by_github_appends (h : str) (st : State) :
  exists out, stdout (snd (get_student_by_github h st)) = stdout st ++ out.
Proof.
  unfold get_student_by_github. run.
  destruct (select_student (pending (session st)) h) as [|[[fn ln] gh] rows].
  - exists []. cbn. now rewrite app_nil_r.
  - cbn [hd_error unpack_row snd stdout with_stdout].
    eexists. reflexivity.
Qed.

Lemma handle_command_appends (line : str) (st : State) :
  exists out, stdout (snd (handle_command line st)) = stdout st ++ out.
Proof.
  assert (Hnil : exists out : str, stdout st = stdout st ++ out)
    by (exists []; now rewrite app_nil_r).
  unfold handle_command.
  destruct (split line) as [|command args]; [exact Hnil|]. run.
  destruct (str_eqb command (lit "student")).
  - destruct args as [|github args]; [exact Hnil|]. run.
    destruct (get_student_by_github_appends github st) as (out & Hout).
    exists out. now destruct (get_student_by_github github st) as [[[]|e] st'].
  - destruct (str_eqb command (lit "new_student")).
    + destruct args as [|a [|b [|c [|d args]]]]; try exact Hnil.
      run. rewrite make_new_student_cases.
      destruct (forallb sendable _); [|exact Hnil].
      destruct (insert_student _ a b c); [|exact Hnil].
      cbn [snd stdout]. eexists. reflexivity.
    + destruct (str_eqb command (lit "quit")); cbn [negb]; [exact Hnil|].
      cbn [snd stdout with_stdout]. eexists. reflexivity.
Qed.

(** [handle_input] begins by presenting the prompt. *)
Lemma handle_input_prompts (stdin : list str) (st : State) :
  exists out, stdout (snd (handle_input stdin st)) = stdout st ++ prompt ++ out.
Proof.
  revert st. induction stdin as [|line stdin IH]; intros st.
  - exists []. cbn. now rewrite app_nil_r.
  - rewrite handle_input_step. unfold bind at 1. unfold write at 1.
    unfold bind at 1.
    set (st1 := with_stdout st (stdout st ++ prompt)).
    destruct (handle_command_appends line st1) as (o1 & Ho1).
    destruct (handle_command line st1) as [[command|e] st2];
      cbn [snd] in Ho1.
    + destruct (negb (str_eqb command (lit "quit"))).
      * destruct (IH st2) as (o2 & Ho2). exists (o1 ++ prompt ++ o2).
        rewrite Ho2, Ho1. subst st1. cbn [stdout with_stdout].
        now rewrite <- !app_assoc.
      * exists o1. cbn [ret snd]. rewrite Ho1. subst st1.
        cbn [stdout with_stdout]. now rewrite <- app_assoc.
    + exists o1. cbn [snd]. rewrite Ho1. subst st1.
      cbn [stdout with_stdout]. now rewrite <- app_assoc.
Qed.

(** C7 (as amended).  Run as a script, the program connects the database
    to the app and closes the session: it prints nothing and reads no
    input, because the call of [handle_input] is commented out.
    [handle_input], when it is called, presents the prompt [HBA Database> ]
    before anything else and, for each line read, dispatches on its
    whitespace-separated tokens and tests for [quit]. *)
Theorem script_connects_then_closes (stdin : list str) (st : State) :
  main stdin st =
    (Ok stdin,
     {| app_config :=
          dict_set
            (dict_set (app_config st) (lit "SQLALCHEMY_DATABASE_URI")
                      (CfgStr (lit "postgresql:///project-tracker")))
            (lit "SQLALCHEMY_TRACK_MODIFICATIONS") (CfgBool false);
        db_app := true;
        session := {| committed := committed (session st);
                      pending := committed (session st) |};
        stdout := stdout st |}) /\
  (exists out,
     stdout (snd (handle_input stdin st)) = stdout st ++ prompt ++ out) /\
  (forall line,
     handle_input (line :: stdin) st =
     (write prompt ;;
      command <- handle_command line ;;
      if negb (str_eqb command (lit "quit")) then handle_input stdin
      else ret stdin) st) /\
  (forall line line',
     split line = split line' -> handle_command line = handle_command line').
Proof.
  split; [reflexivity|]. split; [apply handle_input_prompts|].
  split; [intros line; apply handle_input_step|].
  intros line line' Hsplit. unfold handle_command. now rewrite Hsplit.
Qed.

Lemma script_connects_then_closes_witness :
  stdout (snd (main [lit "quit"] sample_state)) = stdout sample_state /\
  handle_command (lit "  student   jhacks ") = handle_command (lit "student jhacks").
Proof.
  destruct (script_connects_then_closes [lit "quit"] sample_state)
    as (Hmain & _ & _ & Htokens).
  split.
  - rewrite Hmain. reflexivity.
  - apply Htokens. reflexivity.
Defined.

(** C7 as stated fails: on an input that holds [quit], the script prints no
    prompt and leaves the line unread, where [handle_input] would have
    prompted and consumed it. *)
Lemma script_presents_no_prompt :
  fst (main [lit "quit"] sample_state) = Ok [lit "quit"] /\
  stdout (snd (main [lit "quit"] sample_state)) = [] /\
  ~ (exists out,
       stdout (snd (main [lit "quit"] sample_state)) =
       stdout sample_state ++ prompt ++ out) /\
  handle_input [lit "quit"] sample_state =
    (Ok [], with_stdout sample_state prompt).
Proof.
  split; [reflexivity|]. split; [reflexivity|]. split; [|reflexivity].
  intros (out & H). vm_compute in H. discriminate H.
Qed.

End CommandLoop.

(* ------------------------------------------------------------------ *)
(** ** Further properties of the accessors *)

Section ReadAccessors.

Lemma with_stdout_nil (st : State) : with_stdout st (stdout st ++ []) = st.
Proof. destruct st. unfold with_stdout. cbn. now rewrite app_nil_r. Qed.

(** Each read accessor is decided by the first row of its cursor. *)
Lemma get_student_by_github_cases (h : str) (st : State) :
  get_student_by_github h st =
  match select_student (pending (session st)) h with
  | [] => (Raise TypeError, st)
  | (first_name, last_name, github) :: _ =>
      (Ok tt,
       with_stdout st
         (stdout st ++ (lit "Student: " ++ format_text first_name ++ lit " "
                        ++ format_text last_name ++ nl
                        ++ lit "GitHub account: " ++ format_text github) ++ nl))
  end.
Proof.
  unfold get_student_by_github. run.
  destruct (select_student (pending (session st)) h) as [|[[a b] c] rows];
    reflexivity.
Qed.

Lemma get_project_by_title_cases (t : str) (st : State) :
  get_project_by_title t st =
  match select_project (pending (session st)) t with
  | [] => (Raise TypeError, st)
  | (title, description, max_grade) :: _ =>
      (Ok tt,
       with_stdout st
         (stdout st ++ (format_text title ++ lit ": " ++ format_text description
                        ++ nl ++ lit "Max grade: " ++ format_int max_grade)
          ++ nl))
  end.
Proof.
  unfold get_project_by_title. run.
  destruct (select_project (pending (session st)) t) as [|[[a b] c] rows];
    reflexivity.
Qed.

Lemma get_grade_by_github_title_cases (h t : str) (st : State) :
  get_grade_by_github_title h t st =
  match select_grade (pending (session st)) h t with
  | [] => (Raise TypeError, st)
  | (first_name, last_name, grade) :: _ =>
      (Ok tt,
       with_stdout st
         (stdout st ++ (format_text first_name ++ lit " "
                        ++ format_text last_name ++ lit "'s " ++ t
                        ++ lit " project received " ++ format_int grade
                        ++ lit " points") ++ nl))
  end.
Proof.
  unfold get_grade_by_github_title. run.
  destruct (select_grade (pending (session st)) h t) as [|[[a b] c] rows];
    reflexivity.
Qed.

(** X1.  Reads never change the state: whatever it finds, each of the three
    read accessors leaves the configuration and the session as they were
    and only appends to the standard output. *)
Theorem read_accessors_only_print (st : State) (h t : str) :
  (exists out,
     snd (get_student_by_github h st) = with_stdout st (stdout st ++ out)) /\
  (exists out,
     snd (get_project_by_title t st) = with_stdout st (stdout st ++ out)) /\
  (exists out,
     snd (get_grade_by_github_title h t st) = with_stdout st (stdout st ++ out)).
Proof.
  split; [|split].
  - rewrite get_student_by_github_cases.
    destruct (select_student _ h) as [|[[a b] c] rows].
    + exists []. now rewrite with_stdout_nil.
    + eexists. reflexivity.
  - rewrite get_project_by_title_cases.
    destruct (select_project _ t) as [|[[a b] c] rows].
    + exists []. now rewrite with_stdout_nil.
    + eexists. reflexivity.
  - rewrite get_grade_by_github_title_cases.
    destruct (select_grade _ h t) as [|[[a b] c] rows].
    + exists []. now rewrite with_stdout_nil.
    + eexists. reflexivity.
Qed.

(** X2.  When a projects row has the title, [get_project_by_title] prints
    [{title}: {description}] and, on the next line, [Max grade: {max_grade}]
    for the first such row; further rows of the same title are not looked
    at. *)
Theorem get_project_by_title_prints
    (st : State) (t : str) (p : projects.row) (rest : list projects.row) :
  filter (project_matches t) (projects (pending (session st))) = p :: rest ->
  get_project_by_title t st =
  (Ok tt,
   with_stdout st
     (stdout st ++ t ++ lit ": " ++ format_text (projects.description p) ++ nl
      ++ lit "Max grade: " ++ format_int (projects.max_grade p) ++ nl)).
Proof.
  intros H.
  assert (Hp : projects.title p = Some t).
  { apply holds_sql_eq_param. change (project_matches t p = true).
    assert (Hin : In p (filter (project_matches t)
                          (projects (pending (session st)))))
      by (rewrite H; now left).
    now apply filter_In in Hin. }
  rewrite get_project_by_title_cases. unfold select_project.
  change (filter _ (projects (pending (session st))))
    with (filter (project_matches t) (projects (pending (session st)))).
  rewrite H. cbn [map]. rewrite Hp. cbn [format_text].
  now rewrite <- !app_assoc.
Qed.

Lemma get_project_by_title_prints_witness :
  get_project_by_title (lit "Markdown") sample_state =
  (Ok tt,
   with_stdout sample_state
     (lit "Markdown: Tools to convert text" ++ nl ++ lit "Max grade: 50" ++ nl)).
Proof.
  apply (get_project_by_title_prints sample_state (lit "Markdown")
           (projects.Row (Some (lit "Markdown"))
                         (Some (lit "Tools to convert text")) (Some 50%Z)) []).
  reflexivity.
Defined.

Lemma flat_map_filter {A B} (f : A -> bool) (k : A -> list B) (l : list A) :
  flat_map (fun x => if f x then k x else []) l = flat_map k (filter f l).
Proof.
  induction l as [|a l IH]; [reflexivity|].
  cbn [flat_map filter]. destruct (f a); cbn [flat_map app]; now rewrite IH.
Qed.

(** X3.  When a students row has the handle and a grades row matches handle
    and title, [get_grade_by_github_title] prints the names of the first
    such student with the grade of the first such grades row (a NULL grade
    shows as [None]). *)
Theorem get_grade_by_github_title_prints
    (st : State) (h t : str)
    (s : students.row) (ss : list students.row)
    (g : grades.row) (gs : list grades.row) :
  filter (student_matches h) (students (pending (session st))) = s :: ss ->
  filter (grade_matches h t) (grades (pending (session st))) = g :: gs ->
  get_grade_by_github_title h t st =
  (Ok tt,
   with_stdout st
     (stdout st ++ format_text (students.first_name s) ++ lit " "
      ++ format_text (students.last_name s) ++ lit "'s " ++ t
      ++ lit " project received " ++ format_int (grades.grade g)
      ++ lit " points" ++ nl)).
Proof.
  intros Hs Hg.
  rewrite get_grade_by_github_title_cases, select_grade_rows.
  rewrite flat_map_filter, Hs, Hg. cbn [flat_map map app].
  now rewrite <- !app_assoc.
Qed.

Lemma get_grade_by_github_title_prints_witness :
  get_grade_by_github_title (lit "jhacks") (lit "Markdown") sample_state =
  (Ok tt,
   with_stdout sample_state
     (lit "Jane Hacker's Markdown project received 10 points" ++ nl)).
Proof.
  apply (get_grade_by_github_title_prints sample_state (lit "jhacks")
           (lit "Markdown") jane []
           (grades.Row (Some (lit "jhacks")) (Some (lit "Markdown"))
                       (Some 10%Z)) []); reflexivity.
Defined.

End ReadAccessors.

(* ------------------------------------------------------------------ *)
(** ** How the write accessors compose with the reads *)

Section WriteAccessors.









(** X6.  [assign_grade] does not check that the student exists: for a
    handle no students row has, and values the columns take as they are (a
    handle and a title the driver can send, of at most 30 characters, a
    grade in the range of [integer]), the grade row is inserted and
    committed and the confirmation printed, and the lookup of that very
    grade then raises [TypeError], because the query starts from
    students. *)
Theorem assign_grade_without_student (st : State) (h t : str) (n : Z) :
  storable h = true -> storable t = true -> in_integer n = true ->
  (forall s, In s (students (pending (session st))) ->
             students.github s <> Some h) ->
  (assign_grade h t n ;; get_grade_by_github_title h t) st =
  (Raise TypeError,
   {| app_config := app_config st;
      db_app := db_app st;
      session := {| committed := store_grade (pending (session st)) h t n;
                    pending := store_grade (pending (session st)) h t n |};
      stdout := stdout st ++ lit "Successfully graded " ++ h ++ lit "'s " ++ t
                ++ lit " project " ++ str_of_int n ++ lit " points." ++ nl |}).
Proof.
  intros Hh Ht Hn Hnone. unfold bind at 1.
  rewrite assign_grade_runs by assumption.
  rewrite get_grade_by_github_title_cases. cbn [session pending].
  rewrite select_grade_rows, flat_map_filter.
  change (students (store_grade (pending (session st)) h t n))
    with (students (pending (session st))).
  replace (filter (student_matches h) (students (pending (session st))))
    with (@nil students.row).
  - cbn [flat_map]. now rewrite <- !app_assoc.
  - symmetry. apply filter_nil_iff. intros s Hs.
    destruct (student_matches h s) eqn:E; [|reflexivity].
    apply holds_sql_eq_param in E. now apply Hnone in Hs.
Qed.

Lemma assign_grade_without_student_witness :
  fst ((assign_grade (lit "ghost") (lit "Markdown") 7 ;;
        get_grade_by_github_title (lit "ghost") (lit "Markdown")) sample_state)
    = Raise TypeError /\
  grades (committed (session (snd
    ((assign_grade (lit "ghost") (lit "Markdown") 7 ;;
      get_grade_by_github_title (lit "ghost") (lit "Markdown")) sample_state))))
    = grades sample_db
      ++ [grades.Row (Some (lit "ghost")) (Some (lit "Markdown")) (Some 7%Z)].
Proof.
  rewrite (assign_grade_without_student sample_state (lit "ghost")
             (lit "Markdown") 7).
  - split; reflexivity.
  - reflexivity.
  - reflexivity.
  - reflexivity.
  - intros s [<-|[]]. discriminate.
Defined.

(** X7.  What [make_new_student] inserts is committed before it returns:
    for names and a handle the columns take as they are (text the driver
    can send, of at most 30 characters), closing the session afterwards
    rolls nothing back, and the lookup still finds the student
    ([make_new_student], [close], then [get_student_by_github], for a
    handle no row had before). *)
Theorem new_student_survives_close (st : State) (first last handle : str) :
  storable first = true -> storable last = true -> storable handle = true ->
  (forall s, In s (students (pending (session st))) ->
             students.github s <> Some handle) ->
  (make_new_student first last handle ;; close ;;
   get_student_by_github handle) st =
  (Ok tt,
   {| app_config := app_config st;
      db_app := db_app st;
      session :=
        {| committed := store_student (pending (session st)) first last handle;
           pending := store_student (pending (session st)) first last handle |};
      stdout :=
        stdout st
        ++ lit "Successfully added " ++ first ++ lit " " ++ last ++ lit "." ++ nl
        ++ lit "Student: " ++ first ++ lit " " ++ last ++ nl
        ++ lit "GitHub account: " ++ handle ++ nl |}).
Proof.
  intros Hf Hl Hh Hfresh. unfold bind at 1.
  rewrite make_new_student_runs by assumption.
  unfold bind at 1. unfold close at 1.
  cbn [session committed pending with_session app_config db_app stdout].
  rewrite get_student_single_row
    with (r := students.Row (Some first) (Some last) (Some handle))
    by (apply filter_appended_student, Hfresh).
  unfold with_stdout, with_session.
  cbn [fst snd stdout session pending committed app_config db_app
       students.first_name students.last_name format_text].
  now rewrite <- !app_assoc.
Qed.

Lemma new_student_survives_close_witness :
  fst ((make_new_student (lit "Sarah") (lit "Developer") (lit "sdevelops") ;;
        close ;; get_student_by_github (lit "sdevelops")) sample_state) = Ok tt /\
  stdout (snd ((make_new_student (lit "Sarah") (lit "Developer")
                                 (lit "sdevelops") ;;
                close ;; get_student_by_github (lit "sdevelops")) sample_state)) =
  lit "Successfully added Sarah Developer." ++ nl
  ++ lit "Student: Sarah Developer" ++ nl
  ++ lit "GitHub account: sdevelops" ++ nl.
Proof.
  rewrite (new_student_survives_close sample_state (lit "Sarah")
             (lit "Developer") (lit "sdevelops")).
  - split; reflexivity.
  - reflexivity.
  - reflexivity.
  - reflexivity.
  - intros s [<-|[]]. discriminate.
Defined.

End WriteAccessors.

(* ------------------------------------------------------------------ *)
(** ** Further properties of the command loop *)

Section Dispatch.

Lemma handle_command_student (line h : str) (extra : list str) (st : State) :
  split line = lit "student" :: h :: extra ->
  handle_command line st =
  match get_student_by_github h st with
  | (Ok _, st') => (Ok (lit "student"), st')
  | (Raise e, st') => (Raise e, st')
  end.
Proof.
  intros Hsplit. unfold handle_command. rewrite Hsplit. run.
  change (str_eqb (lit "student") (lit "student")) with true. cbv iota.
  destruct (get_student_by_github h st) as [[[]|e] st']; reflexivity.
Qed.

(** X8.  A line [student <handle>] makes the loop run
    [get_student_by_github(handle)] and go on with the next line; tokens
    after the handle are ignored. *)
Theorem student_command_is_get_student_by_github
    (line h : str) (extra stdin : list str) (st : State) :
  split line = lit "student" :: h :: extra ->
  handle_input (line :: stdin) st =
  (write prompt ;; get_student_by_github h ;; handle_input stdin) st.
Proof.
  intros Hsplit. rewrite handle_input_step.
  unfold bind at 1 3. unfold write. unfold bind at 1 2.
  rewrite (handle_command_student line h extra) by assumption.
  destruct (get_student_by_github h _) as [[[]|e] st']; reflexivity.
Qed.

Lemma student_command_is_get_student_by_github_witness :
  handle_input [lit "student jhacks please"; lit "quit"] sample_state =
  (write prompt ;; get_student_by_github (lit "jhacks") ;;
   handle_input [lit "quit"]) sample_state.
Proof.
  apply (student_command_is_get_student_by_github (lit "student jhacks please")
           (lit "jhacks") [lit "please"] [lit "quit"] sample_state).
  reflexivity.
Defined.



(** X10.  The line [student] with no handle makes the loop raise
    [IndexError] on [args[0]]; nothing is looked up or printed beyond the
    prompt. *)
Theorem student_command_without_handle
    (line : str) (stdin : list str) (st : State) :
  split line = [lit "student"] ->
  handle_input (line :: stdin) st =
  (Raise IndexError, with_stdout st (stdout st ++ prompt)).
Proof.
  intros Hsplit. rewrite handle_input_step.
  unfold bind at 1. unfold write. unfold bind at 1.
  unfold handle_command. now rewrite Hsplit.
Qed.

Lemma student_command_without_handle_witness :
  handle_input [lit " student "; lit "quit"] sample_state =
  (Raise IndexError, with_stdout sample_state prompt).
Proof.
  apply (student_command_without_handle (lit " student ") [lit "quit"]
           sample_state).
  reflexivity.
Defined.

(** X11.  A [new_student] line with more than three further tokens makes
    the loop raise [ValueError] as well: the unpack wants exactly three.
    Only the prompt has been printed and no row is inserted. *)
Theorem new_student_too_many_arguments
    (line : str) (args stdin : list str) (st : State) :
  split line = lit "new_student" :: args ->
  3 < List.length args ->
  handle_input (line :: stdin) st =
  (Raise ValueError, with_stdout st (stdout st ++ prompt)).
Proof.
  intros Hsplit Hlen. rewrite handle_input_step.
  unfold bind at 1. unfold write at 1. unfold bind at 1.
  unfold handle_command. rewrite Hsplit. run.
  change (str_eqb (lit "new_student") (lit "student")) with false.
  change (str_eqb (lit "new_student") (lit "new_student")) with true.
  cbv iota.
  destruct args as [|a [|b [|c [|d args]]]]; simpl in Hlen; try lia;
    reflexivity.
Qed.

Lemma new_student_too_many_arguments_witness :
  handle_input [lit "new_student Mary Ann Hacker mhacks"; lit "quit"]
               sample_state =
  (Raise ValueError, with_stdout sample_state prompt).
Proof.
  apply (new_student_too_many_arguments
           (lit "new_student Mary Ann Hacker mhacks")
           [lit "Mary"; lit "Ann"; lit "Hacker"; lit "mhacks"] [lit "quit"]
           sample_state).
  - reflexivity.
  - simpl; lia.
Defined.

End Dispatch.

(* ------------------------------------------------------------------ *)
(** ** What a whole run of the loop does *)

Section Runs.

(** The value of the loop body is the first token of the line. *)
Lemma handle_command_value (line command : str) (st st' : State) :
  handle_command line st = (Ok command, st') ->
  exists args, split line = command :: args.
Proof.
  unfold handle_command.
  destruct (split line) as [|c args]; [discriminate|]. run.
  assert (Hgoal : c = command -> exists args0, c :: args = command :: args0)
    by (intros ->; eauto).
  destruct (str_eqb c (lit "student")).
  - destruct args as [|h args]; [discriminate|]. run.
    destruct (get_student_by_github h st) as [[[]|e] st1];
      intros H; apply Hgoal; congruence.
  - destruct (str_eqb c (lit "new_student")).
    + destruct args as [|a [|b [|d [|x args]]]]; try discriminate.
      run. destruct (make_new_student a b d st) as [[[]|e] st1];
        intros H; apply Hgoal; congruence.
    + destruct (negb (str_eqb c (lit "quit"))); run;
        intros H; apply Hgoal; congruence.
Qed.

(** X12.  The loop returns normally only through [quit]: when
    [handle_input] returns, the input splits into lines whose first token
    is not [quit], then a line whose first token is [quit], then exactly
    the lines left unread. *)
Theorem handle_input_returns_at_quit
    (stdin rest : list str) (st st' : State) :
  handle_input stdin st = (Ok rest, st') ->
  exists before line args,
    stdin = before ++ line :: rest /\
    split line = lit "quit" :: args /\
    Forall (fun l => forall a, split l <> lit "quit" :: a) before.
Proof.
  revert st. induction stdin as [|line stdin IH]; intros st H.
  - discriminate H.
  - rewrite handle_input_step in H. unfold bind at 1 in H.
    unfold write at 1 in H. unfold bind at 1 in H.
    destruct (handle_command line _) as [[command|e] st1] eqn:Hc;
      [|discriminate H].
    apply handle_command_value in Hc as (args & Hsplit).
    destruct (str_eqb command (lit "quit")) eqn:Hq; cbn [negb] in H.
    + apply str_eqb_eq in Hq. subst command.
      injection H as <- _. exists [], line, args. auto.
    + apply IH in H as (before & l & a & -> & Hl & Hbefore).
      exists (line :: before), l, a. split; [reflexivity|]. split; [assumption|].
      constructor; [|assumption].
      intros a' Ha'. rewrite Hsplit in Ha'. injection Ha' as -> _.
      now rewrite str_eqb_refl in Hq.
Qed.

Lemma handle_input_returns_at_quit_witness :
  exists before line args,
    [lit "foobar"; lit "student jhacks"; lit "quit"; lit "student x"] =
      before ++ line :: [lit "student x"] /\
    split line = lit "quit" :: args /\
    Forall (fun l => forall a, split l <> lit "quit" :: a) before.
Proof.
  apply (handle_input_returns_at_quit
           [lit "foobar"; lit "student jhacks"; lit "quit"; lit "student x"]
           [lit "student x"] sample_state
           (with_stdout sample_state
              (prompt ++ lit "Invalid Entry. Try again." ++ nl
               ++ prompt ++ lit "Student: Jane Hacker" ++ nl
               ++ lit "GitHub account: jhacks" ++ nl ++ prompt))).
  reflexivity.
Defined.

(** Every word [split] returns is a token. *)
Lemma split_from_tokens (s tok : str) :
  forallb (fun c => negb (is_space c)) tok = true ->
  Forall (fun t => is_token t = true) (split_from tok s).
Proof.
  revert tok. induction s as [|c s IH]; intros tok Htok; cbn [split_from].
  - destruct tok; [constructor|]. constructor; [exact Htok|constructor].
  - destruct (is_space c) eqn:Hc.
    + destruct tok; [now apply IH|].
      constructor; [exact Htok|now apply IH].
    + apply IH. rewrite forallb_app, Htok. cbn. now rewrite Hc.
Qed.

Lemma split_tokens (s : str) : Forall (fun t => is_token t = true) (split s).
Proof. now apply split_from_tokens. Qed.

Lemma loop_effect_refl (st : State) : loop_effect st st.
Proof.
  repeat split; auto. exists []. split; [now rewrite app_nil_r|constructor].
Qed.

Lemma loop_effect_print (st : State) (s : str) :
  loop_effect st (with_stdout st s).
Proof.
  repeat split; auto. exists []. split; [now rewrite app_nil_r|constructor].
Qed.

Lemma loop_effect_trans (a b c : State) :
  loop_effect a b -> loop_effect b c -> loop_effect a c.
Proof.
  intros (Hc1 & Hd1 & Hp1 & Hg1 & (add1 & Hs1 & Ha1) & Hk1)
         (Hc2 & Hd2 & Hp2 & Hg2 & (add2 & Hs2 & Ha2) & Hk2).
  split; [congruence|]. split; [congruence|]. split; [congruence|].
  split; [congruence|]. split.
  - exists (add1 ++ add2). split.
    + now rewrite Hs2, Hs1, app_assoc.
    + apply Forall_app; auto.
  - destruct Hk2 as [Hk2|Hk2]; [|now right].
    destruct Hk1 as [Hk1|Hk1]; [left; congruence|right].
    now rewrite Hk2.
Qed.

Lemma handle_command_effect (line : str) (st : State) :
  loop_effect st (snd (handle_command line st)).
Proof.
  pose proof (split_tokens line) as Htok.
  unfold handle_command.
  destruct (split line) as [|command args]; [apply loop_effect_refl|]. run.
  destruct (str_eqb command (lit "student")).
  - destruct args as [|h args]; [apply loop_effect_refl|]. run.
    rewrite get_student_by_github_cases.
    destruct (select_student _ h) as [|[[a b] c] rows];
      [apply loop_effect_refl|apply loop_effect_print].
  - destruct (str_eqb command (lit "new_student")).
    + destruct args as [|f [|l [|h [|x args]]]]; try apply loop_effect_refl.
      run. rewrite make_new_student_cases.
      destruct (forallb sendable _); [|apply loop_effect_refl].
      destruct (insert_student _ f l h) as [db|e] eqn:Hins;
        [|apply loop_effect_refl].
      apply insert_student_stored in Hins as (-> & Vf & Vl & Vh).
      apply Forall_inv_tail in Htok.
      pose proof (Forall_inv Htok) as Hf. apply Forall_inv_tail in Htok.
      pose proof (Forall_inv Htok) as Hl. apply Forall_inv_tail in Htok.
      pose proof (Forall_inv Htok) as Hh.
      rewrite (varchar_token 30 f _ Hf Vf), (varchar_token 30 l _ Hl Vl),
              (varchar_token 30 h _ Hh Vh).
      cbn [snd]. repeat split; auto.
      * exists [students.Row (Some f) (Some l) (Some h)].
        split; [reflexivity|]. constructor; [|constructor].
        exists f, l, h. auto.
    + destruct (negb (str_eqb command (lit "quit")));
        [apply loop_effect_print|apply loop_effect_refl].
Qed.

(** X13.  Whatever the input and however the loop ends, a run of
    [handle_input] leaves the configuration, the projects and the grades
    as they were; it only adds rows at the end of students, each with three
    non-null columns that are single tokens of a line; and either the
    session is untouched or everything the session sees is committed. *)
Theorem handle_input_effect (stdin : list str) (st : State) :
  loop_effect st (snd (handle_input stdin st)).
Proof.
  revert st. induction stdin as [|line stdin IH]; intros st.
  - apply loop_effect_print.
  - rewrite handle_input_step. unfold bind at 1. unfold write at 1.
    apply loop_effect_trans with (with_stdout st (stdout st ++ prompt));
      [apply loop_effect_print|].
    generalize (with_stdout st (stdout st ++ prompt)) as st1. intros st1.
    unfold bind.
    pose proof (handle_command_effect line st1) as Hc.
    destruct (handle_command line st1) as [[command|e] st2]; cbn [snd] in Hc;
      [|exact Hc].
    destruct (negb (str_eqb command (lit "quit"))); [|exact Hc].
    apply loop_effect_trans with st2; [exact Hc|apply IH].
Qed.

End Runs.
